(** * Token-budgeted truncation of search results (deer-flow)

    A shallow embedding of [src/utils/token_utils.py] and of the rendering
    done by [truncated_web_search] in [src/tools/search.py], with the
    properties of the specification stated and settled against it.

    Python values are modelled as follows.
    - A [str] is a sequence of Unicode code points, [list N]; [len] counts
      code points, so the truncation marker has length 20 (its UTF-8
      encoding would have 36 bytes).
    - An [int] is a [Z].
    - A [dict] with string keys is a [gmap string _].
    - A raised exception is a value of [outcome]. *)

From Stdlib Require Import ZArith Floats Uint63.
From stdpp Require Import base numbers list gmap strings fin_maps.

Local Open Scope Z_scope.

(** ** Python strings *)

Module Py.

Definition char := N.
Abbreviation str := (list char).

(** An ASCII literal as a Python string. *)
Fixpoint lit (s : string) : str :=
  match s with
  | EmptyString => []
  | String a s' => Ascii.N_of_ascii a :: lit s'
  end.

Definition len (s : str) : Z := Z.of_nat (length s).

(** Truth value of a string: [not text] holds of the empty string only. *)
Definition not_ (s : str) : bool :=
  match s with [] => true | _ => false end.

(** [s[:n]]: a negative bound counts from the end. *)
Definition slice_to (s : str) (n : Z) : str :=
  if 0 <=? n then take (Z.to_nat n) s
  else take (Z.to_nat (len s + n)) s.

(** [s.rfind(c)] for a one-character needle [c]: the highest index holding
    [c], and [-1] when there is none.  [i] is the index of the head. *)
Fixpoint rfind_from (i : Z) (s : str) (c : char) : Z :=
  match s with
  | [] => -1
  | x :: s' =>
      let r := rfind_from (i + 1) s' c in
      if 0 <=? r then r else if N.eqb x c then i else -1
  end.

Definition rfind (s : str) (c : char) : Z := rfind_from 0 s c.

(** ["sep".join(parts)] *)
Fixpoint join (sep : str) (parts : list str) : str :=
  match parts with
  | [] => []
  | [p] => p
  | p :: ps => p ++ sep ++ join sep ps
  end.

Definition space : char := 32%N.
Definition nl : char := 10%N.

End Py.

Abbreviation pystr := Py.str.

(** ** [token_utils.py] *)

(** [estimate_tokens]: one token per four characters, rounded down. *)
Definition estimate_tokens (text : pystr) : Z :=
  if Py.not_ text then 0 else Py.len text / 4.

(** The suffix appended by [truncate_text_by_tokens]:
    two newlines, then [[内容因token限制被截断...]]. *)
Definition MARKER : pystr :=
  [Py.nl; Py.nl] ++ Py.lit "[" ++ [20869; 23481; 22240]%N ++ Py.lit "token"
  ++ [38480; 21046; 34987; 25130; 26029]%N ++ Py.lit "...]".

(** [last_space > char_limit * 0.8].  Python multiplies in double precision
    and compares the integer with the resulting float exactly.  The double
    nearest to 0.8 is 0.8 * (1 + 2^-54), so for every [char_limit] below 2^49
    the rounded product is 0.8 * char_limit when that is an integer and lies
    strictly between its floor and ceiling otherwise; the comparison with an
    integer is then the one on rationals.  [char_limit] is below the length
    of an existing string whenever the test is reached.  (Agreement with the
    double-precision computation is checked below for every character limit
    up to 400000.) *)
Definition gt_scaled_08 (last_space char_limit : Z) : bool :=
  4 * char_limit <? 5 * last_space.

(** The same test in double precision, on non-negative arguments; the
    literal is the double nearest to 0.8. *)
Definition gt_scaled_08_float (last_space char_limit : Z) : bool :=
  PrimFloat.ltb
    (PrimFloat.mul (PrimFloat.of_uint63 (Uint63.of_Z char_limit))
       0x1.999999999999ap-1%float)
    (PrimFloat.of_uint63 (Uint63.of_Z last_space)).

(** The two tests agree for the character limits [4 * m], [4 * (m + 1)],
    ... ([count] of them), at the integers on either side of
    [0.8 * char_limit]. *)
Fixpoint float_agrees_from (m : Z) (count : nat) : bool :=
  match count with
  | O => true
  | S count' =>
      let char_limit := 4 * m in
      let below := 4 * char_limit / 5 in
      eqb (gt_scaled_08_float below char_limit)
          (gt_scaled_08 below char_limit)
      && eqb (gt_scaled_08_float (below + 1) char_limit)
             (gt_scaled_08 (below + 1) char_limit)
      && float_agrees_from (m + 1) count'
  end.

Definition truncate_text_by_tokens (text : pystr) (max_tokens : Z) : pystr :=
  if Py.not_ text || (max_tokens <=? 0) then []
  else
    let estimated_tokens := estimate_tokens text in
    if estimated_tokens <=? max_tokens then text
    else
      let char_limit := max_tokens * 4 in
      if char_limit <? Py.len text then
        let truncated := Py.slice_to text char_limit in
        let last_space := Py.rfind truncated Py.space in
        let truncated :=
          if gt_scaled_08 last_space char_limit
          then Py.slice_to truncated last_space
          else truncated in
        truncated ++ MARKER
      else text.

(** *** Search results *)

(** An element of the result list: a [dict] with string values, or any
    other object, which the loop renders with [str(result)]. *)
Inductive result :=
  | Dict (d : gmap string pystr)
  | NotDict (str_ : pystr).

(** [d.get(key, default)] *)
Definition dict_get {V} (d : gmap string V) (key : string) (default_ : V) : V :=
  default default_ (d !! key).

(** The argument [search_results : Union[str, List[dict]]]. *)
Inductive search_results :=
  | Text (s : pystr)
  | Results (l : list result).

Definition blank_line : pystr := [Py.nl; Py.nl].

(** The block built in the loop body of [truncate_search_results]. *)
Definition result_text (r : result) : pystr :=
  match r with
  | Dict d =>
      let title := dict_get d "title" [] in
      let content := dict_get d "content" [] in
      Py.lit "## " ++ title ++ blank_line ++ content
  | NotDict s => s
  end.

(** The [for] loop of [truncate_search_results], with its two local
    variables as accumulators; the result is [combined_results] when the
    loop is left, by exhaustion or by [break]. *)
Fixpoint combine_results (results : list result) (max_tokens : Z)
    (combined_results : list pystr) (current_tokens : Z) : list pystr :=
  match results with
  | [] => combined_results
  | r :: rest =>
      let result_tokens := estimate_tokens (result_text r) in
      if max_tokens <? current_tokens + result_tokens then
        let remaining_tokens := max_tokens - current_tokens in
        if 100 <? remaining_tokens then
          combined_results
            ++ [truncate_text_by_tokens (result_text r) remaining_tokens]
        else combined_results
      else
        combine_results rest max_tokens
          (combined_results ++ [result_text r])
          (current_tokens + result_tokens)
  end.

(** [not search_results] *)
Definition no_results (sr : search_results) : bool :=
  match sr with
  | Text s => Py.not_ s
  | Results l => match l with [] => true | _ => false end
  end.

(** The text handed to the final truncation. *)
Definition final_text (sr : search_results) (max_tokens : Z) : pystr :=
  match sr with
  | Results l => Py.join blank_line (combine_results l max_tokens [] 0)
  | Text s => s
  end.

(** [truncate_search_results] called with an integer [max_tokens]. *)
Definition truncate_search_results (sr : search_results) (max_tokens : Z)
    : pystr :=
  if no_results sr then []
  else truncate_text_by_tokens (final_text sr max_tokens) max_tokens.

(** *** Configuration *)

(** The values a YAML scalar of [conf.yaml] is modelled with: an integer, a
    string, or [None] (a key with a null value).  Floats, booleans and
    collections are left out. *)
Inductive pyval :=
  | PInt (z : Z)
  | PStr (s : pystr)
  | PNone.

Inductive exn := ValueError | TypeError | LoadError.

Inductive outcome (A : Type) :=
  | Return (a : A)
  | Raise (e : exn).
Arguments Return {A} a.
Arguments Raise {A} e.

Section Config.

(** Python's built-in [int(s)] on a string: [None] stands for
    [ValueError]. *)
Variable py_int : pystr -> option Z.

(** [get_max_token_limit]; [conf] is what [load_yaml_config("conf.yaml")]
    does, the loader being outside this module. *)
Definition get_max_token_limit (conf : outcome (gmap string pyval)) : pyval :=
  match conf with
  | Raise _ => PInt 100000
  | Return config =>
      let max_token_limit := dict_get config "MAX_TOKEN_LIMIT" (PInt 100000) in
      match max_token_limit with
      | PStr s =>
          match py_int s with
          | Some z => PInt z
          | None => PInt 100000
          end
      | _ => max_token_limit
      end
  end.

(** [truncate_search_results] called without [max_tokens].  A limit that
    is not a number reaches the first comparison with an integer
    ([current_tokens + result_tokens > max_tokens] for a list,
    [max_tokens <= 0] for a string), which raises [TypeError]; an empty
    input returns before any comparison. *)
Definition truncate_search_results_default
    (conf : outcome (gmap string pyval)) (sr : search_results)
    : outcome pystr :=
  match get_max_token_limit conf with
  | PInt max_tokens => Return (truncate_search_results sr max_tokens)
  | _ => if no_results sr then Return [] else Raise TypeError
  end.

End Config.

(** ** [search.py]: rendering in [truncated_web_search] *)

(** One element of the list comprehension. *)
Definition elem_text (elem : gmap string pystr) : pystr :=
  Py.lit "## " ++ dict_get elem "title" (Py.lit "No Title") ++ blank_line
  ++ dict_get elem "content" (dict_get elem "snippet" (Py.lit "No content")).

(** [truncated_web_search] on a base tool that returned a list of dicts:
    the blocks are joined and passed on as one string. *)
Definition truncated_web_search (results : list (gmap string pystr))
    (max_token_limit : Z) : pystr :=
  let results_text := Py.join blank_line (elem_text <$> results) in
  truncate_search_results (Text results_text) max_token_limit.

(** ** Auxiliary notions used to state the properties *)

(** [truncate_text_by_tokens text max_tokens] takes the branch that appends
    the marker. *)
Definition cuts (text : pystr) (max_tokens : Z) : bool :=
  negb (Py.not_ text) && (0 <? max_tokens)
  && (max_tokens <? estimate_tokens text).

(** ... and shortens the prefix to its last space. *)
Definition backs_off (text : pystr) (max_tokens : Z) : bool :=
  cuts text max_tokens
  && gt_scaled_08
       (Py.rfind (Py.slice_to text (max_tokens * 4)) Py.space)
       (max_tokens * 4).

(** What is kept of [text] in that branch, before the marker. *)
Definition cut_prefix (text : pystr) (max_tokens : Z) : pystr :=
  let char_limit := max_tokens * 4 in
  let truncated := Py.slice_to text char_limit in
  let last_space := Py.rfind truncated Py.space in
  if gt_scaled_08 last_space char_limit
  then Py.slice_to truncated last_space
  else truncated.

(** [out] respects the budget [b] up to the marker. *)
Definition fits_budget (out : pystr) (b : Z) : Prop :=
  estimate_tokens out <= b + estimate_tokens MARKER
  /\ (estimate_tokens out <= b
      \/ exists body, out = body ++ MARKER /\ Py.len body <= 4 * b).

(** [i] is the index of the last [c] of [s]. *)
Definition is_last (c : Py.char) (s : pystr) (i : nat) : Prop :=
  s !! i = Some c /\ forall j, (i < j)%nat -> s !! j <> Some c.

(** Sum of the estimates of a list of blocks. *)
Definition total_tokens (blocks : list pystr) : Z :=
  foldr (fun b acc => estimate_tokens b + acc) 0 blocks.

(** How many leading blocks can be added while the running total stays
    within [max_tokens]. *)
Fixpoint whole_blocks (blocks : list pystr) (max_tokens running : Z) : nat :=
  match blocks with
  | [] => O
  | b :: bs =>
      if max_tokens <? running + estimate_tokens b then O
      else S (whole_blocks bs max_tokens (running + estimate_tokens b))
  end.

(** The blocks of the specification's accumulation pass: the leading blocks
    that fit, whole, then the first block that does not fit, truncated to
    what remains, when more than 100 tokens remain. *)
Definition accumulated (results : list result) (max_tokens : Z) : list pystr :=
  let blocks := result_text <$> results in
  let k := whole_blocks blocks max_tokens 0 in
  let remaining := max_tokens - total_tokens (take k blocks) in
  take k blocks
  ++ match blocks !! k with
     | Some block =>
         if 100 <? remaining
         then [truncate_text_by_tokens block remaining]
         else []
     | None => []
     end.

(** The whole blocks an input contributes. *)
Definition kept_whole (sr : search_results) (max_tokens : Z) : list pystr :=
  match sr with
  | Text s => [s]
  | Results l =>
      let blocks := result_text <$> l in
      take (whole_blocks blocks max_tokens 0) blocks
  end.

(** The block that did not fit was included in truncated form. *)
Definition partial_included (sr : search_results) (max_tokens : Z) : bool :=
  match sr with
  | Text _ => false
  | Results l =>
      let blocks := result_text <$> l in
      let k := whole_blocks blocks max_tokens 0 in
      bool_decide (k < length blocks)%nat
      && (100 <? max_tokens - total_tokens (take k blocks))
  end.

(** Some text was truncated: the block that did not fit, or the joined
    text in the final pass. *)
Definition text_truncated (sr : search_results) (max_tokens : Z) : bool :=
  partial_included sr max_tokens || cuts (final_text sr max_tokens) max_tokens.

(** Fewer blocks were combined than there are records. *)
Definition record_dropped (sr : search_results) (max_tokens : Z) : bool :=
  match sr with
  | Text _ => false
  | Results l =>
      bool_decide (length (combine_results l max_tokens [] 0) < length l)%nat
  end.

(** Helpers for concrete inputs. *)
Definition rep (n : nat) (s : string) : pystr :=
  mjoin (replicate n (Py.lit s)).

Definition record (title content : pystr) : result :=
  Dict {[ "title" := title; "content" := content ]}.

(** * Properties *)

(** ** Strings *)

Lemma len_nonneg (s : pystr) : 0 <= Py.len s.
Proof. unfold Py.len. lia. Qed.

Lemma len_app (s t : pystr) : Py.len (s ++ t) = Py.len s + Py.len t.
Proof. unfold Py.len. rewrite length_app. lia. Qed.

Lemma not_true_iff (s : pystr) : Py.not_ s = true <-> s = [].
Proof. destruct s; simpl; split; congruence. Qed.

Lemma not_false_iff (s : pystr) : Py.not_ s = false <-> s <> [].
Proof. destruct s; simpl; split; congruence. Qed.

Lemma slice_to_nonneg (s : pystr) (n : Z) :
  0 <= n -> Py.slice_to s n = take (Z.to_nat n) s.
Proof.
  intros Hn. unfold Py.slice_to.
  destruct (Z.leb_spec 0 n); [reflexivity | lia].
Qed.

Lemma len_take (s : pystr) (n : nat) :
  Py.len (take n s) = Z.min (Z.of_nat n) (Py.len s).
Proof. unfold Py.len. rewrite length_take. lia. Qed.

(** [rfind_from] returns [-1] or an index of the string that holds the
    character and is the last one to do so. *)
Lemma rfind_from_spec (s : pystr) (c : Py.char) (i : Z) :
  0 <= i ->
  (Py.rfind_from i s c = -1 /\ forall j, s !! j <> Some c)
  \/ (i <= Py.rfind_from i s c < i + Py.len s
      /\ is_last c s (Z.to_nat (Py.rfind_from i s c - i))).
Proof.
  revert i. induction s as [|x s IH]; intros i Hi; simpl.
  - left. split; [reflexivity | intros j; discriminate].
  - destruct (IH (i + 1)) as [[Hr Hnone] | [Hr Hlast]]; [lia | |].
    + rewrite Hr. simpl.
      destruct (N.eqb_spec x c) as [-> | Hne].
      * right. split; [unfold Py.len; simpl; lia |].
        replace (Z.to_nat (i - i)) with O by lia.
        split; [reflexivity |].
        intros [|j] Hj; [lia | simpl; apply Hnone].
      * left. split; [reflexivity |].
        intros [|j]; simpl; [congruence | apply Hnone].
    + destruct (Z.leb_spec 0 (Py.rfind_from (i + 1) s c)); [| lia].
      right. split; [unfold Py.len in *; simpl length; lia |].
      destruct Hlast as [Hat Hafter].
      replace (Z.to_nat (Py.rfind_from (i + 1) s c - i))
        with (S (Z.to_nat (Py.rfind_from (i + 1) s c - (i + 1)))) by lia.
      split; [exact Hat |].
      intros [|j] Hj; [lia | simpl; apply Hafter; lia].
Qed.

Lemma rfind_spec (s : pystr) (c : Py.char) :
  (Py.rfind s c = -1 /\ forall j, s !! j <> Some c)
  \/ (0 <= Py.rfind s c < Py.len s /\ is_last c s (Z.to_nat (Py.rfind s c))).
Proof.
  unfold Py.rfind.
  destruct (rfind_from_spec s c 0) as [H | [H1 H2]]; [lia | by left |].
  right. split; [lia |]. by rewrite Z.sub_0_r in H2.
Qed.

(** The last index is unique. *)
Lemma is_last_unique (c : Py.char) (s : pystr) (i j : nat) :
  is_last c s i -> is_last c s j -> i = j.
Proof.
  intros [Hi Hi'] [Hj Hj'].
  destruct (Nat.lt_trichotomy i j) as [H | [H | H]]; [| done |].
  - by apply Hi' in H.
  - by apply Hj' in H.
Qed.

Lemma rfind_is_last (s : pystr) (c : Py.char) (i : nat) :
  is_last c s i -> Py.rfind s c = Z.of_nat i.
Proof.
  intros Hi. destruct (rfind_spec s c) as [[_ Hnone] | [Hr Hlast]].
  - destruct Hi as [Hi _]. by apply Hnone in Hi.
  - rewrite <- (is_last_unique _ _ _ _ Hlast Hi). lia.
Qed.

Lemma join_cons_nonempty (sep p : pystr) (ps : list pystr) :
  p <> [] -> Py.join sep (p :: ps) <> [].
Proof.
  intros Hp. destruct ps; simpl; [done |].
  destruct p; [done | discriminate].
Qed.

Lemma join_snoc_suffix (sep p m : pystr) (ps : list pystr) :
  m `suffix_of` p -> m `suffix_of` Py.join sep (ps ++ [p]).
Proof.
  intros Hm. induction ps as [|q ps IH]; [done |].
  change ((q :: ps) ++ [p]) with (q :: (ps ++ [p])).
  destruct (ps ++ [p]) as [|q' l] eqn:E; [by destruct ps |].
  cbn [Py.join]. rewrite app_assoc. by apply suffix_app_r.
Qed.

(** ** [estimate_tokens] and [truncate_text_by_tokens] *)

Lemma estimate_len (t : pystr) : estimate_tokens t = Py.len t / 4.
Proof. destruct t; reflexivity. Qed.

Lemma estimate_nonneg (t : pystr) : 0 <= estimate_tokens t.
Proof.
  rewrite estimate_len. pose proof (len_nonneg t).
  apply Z.div_pos; lia.
Qed.

Lemma estimate_bounds (t : pystr) :
  4 * estimate_tokens t <= Py.len t < 4 * estimate_tokens t + 4.
Proof. rewrite estimate_len. Z.div_mod_to_equations. lia. Qed.

Example marker_len : Py.len MARKER = 20 /\ estimate_tokens MARKER = 5.
Proof. split; reflexivity. Qed.

(** The integer test agrees with the double-precision one for every
    character limit [4 * m] up to 400000, the limit under the default budget
    of 100000: the two tests agree at the integers on either side of
    [0.8 * char_limit], and both are monotone in [last_space]. *)
Example gt_scaled_08_float_agrees :
  float_agrees_from 0 (Z.to_nat 100001) = true.
Proof. vm_compute. reflexivity. Qed.

Lemma truncate_text_nonpos (t : pystr) (b : Z) :
  b <= 0 -> truncate_text_by_tokens t b = [].
Proof.
  intros Hb. unfold truncate_text_by_tokens.
  destruct (Z.leb_spec b 0); [| lia]. by rewrite orb_true_r.
Qed.

Lemma truncate_text_not_cut (t : pystr) (b : Z) :
  0 < b -> cuts t b = false -> truncate_text_by_tokens t b = t.
Proof.
  intros Hb Hc. unfold cuts, truncate_text_by_tokens in *.
  destruct t as [|x t]; [reflexivity |]. simpl Py.not_ in *.
  destruct (Z.leb_spec b 0); [lia |]. simpl.
  destruct (Z.ltb_spec 0 b); [| lia].
  destruct (Z.ltb_spec b (estimate_tokens (x :: t))); [discriminate |].
  destruct (Z.leb_spec (estimate_tokens (x :: t)) b); [reflexivity | lia].
Qed.

Lemma truncate_text_fits (t : pystr) (b : Z) :
  0 < b -> estimate_tokens t <= b -> truncate_text_by_tokens t b = t.
Proof.
  intros Hb He. apply truncate_text_not_cut; [done |].
  unfold cuts. destruct (Z.ltb_spec b (estimate_tokens t)); [lia |].
  by rewrite andb_false_r.
Qed.

Lemma cuts_spec (t : pystr) (b : Z) :
  cuts t b = true <-> 0 < b /\ b < estimate_tokens t.
Proof.
  unfold cuts. rewrite !andb_true_iff, negb_true_iff, not_false_iff.
  rewrite !Z.ltb_lt. split; [tauto |]. intros [H1 H2].
  repeat split; try done. intros ->.
  change (estimate_tokens []) with 0 in H2. lia.
Qed.

Lemma truncate_text_cut (t : pystr) (b : Z) :
  cuts t b = true ->
  truncate_text_by_tokens t b = cut_prefix t b ++ MARKER.
Proof.
  intros Hc. pose proof Hc as [Hb He]%cuts_spec.
  pose proof (estimate_bounds t) as Hl.
  unfold truncate_text_by_tokens, cut_prefix.
  destruct t as [|x t]; [change (estimate_tokens []) with 0 in He; lia |].
  simpl Py.not_.
  destruct (Z.leb_spec b 0); [lia |]. simpl orb. cbv iota.
  destruct (Z.leb_spec (estimate_tokens (x :: t)) b); [lia |].
  cbv zeta.
  destruct (Z.ltb_spec (b * 4) (Py.len (x :: t))); [reflexivity | lia].
Qed.

Lemma len_cut_prefix (t : pystr) (b : Z) :
  0 < b -> Py.len (cut_prefix t b) <= 4 * b.
Proof.
  intros Hb. unfold cut_prefix. cbv zeta.
  rewrite (slice_to_nonneg t) by lia.
  set (p := take (Z.to_nat (b * 4)) t).
  assert (Hp : Py.len p <= 4 * b) by (subst p; rewrite len_take; lia).
  destruct (gt_scaled_08 _ _) eqn:Hg; [| exact Hp].
  unfold gt_scaled_08 in Hg. apply Z.ltb_lt in Hg.
  rewrite slice_to_nonneg by lia. rewrite len_take. lia.
Qed.

Lemma truncate_text_nonempty (t : pystr) (b : Z) :
  0 < b -> t <> [] -> truncate_text_by_tokens t b <> [].
Proof.
  intros Hb Ht. destruct (cuts t b) eqn:Hc.
  - rewrite truncate_text_cut by done.
    intros H. apply (f_equal Py.len) in H. rewrite len_app in H.
    pose proof (len_nonneg (cut_prefix t b)). vm_compute (Py.len MARKER) in H.
    vm_compute (Py.len []) in H. lia.
  - by rewrite truncate_text_not_cut.
Qed.

Lemma truncate_text_marker (t : pystr) (b : Z) :
  cuts t b = true -> MARKER `suffix_of` truncate_text_by_tokens t b.
Proof. intros Hc. rewrite truncate_text_cut by done. by apply suffix_app_r. Qed.

(** The shape of every result of [truncate_text_by_tokens] under a positive
    budget, and the bound on its estimate that follows. *)
Lemma truncate_text_shape (t : pystr) (b : Z) :
  0 < b ->
  (truncate_text_by_tokens t b = t /\ estimate_tokens t <= b)
  \/ (exists body, truncate_text_by_tokens t b = body ++ MARKER
                   /\ Py.len body <= 4 * b).
Proof.
  intros Hb. destruct (cuts t b) eqn:Hc.
  - right. exists (cut_prefix t b).
    split; [by apply truncate_text_cut | by apply len_cut_prefix].
  - left. split; [by apply truncate_text_not_cut |].
    unfold cuts in Hc.
    destruct t as [|x t]; [change (estimate_tokens []) with 0; lia |].
    simpl Py.not_ in Hc. destruct (Z.ltb_spec 0 b); [| lia].
    simpl in Hc. by apply Z.ltb_ge in Hc.
Qed.

Lemma truncate_text_bound (t : pystr) (b : Z) :
  0 < b ->
  estimate_tokens (truncate_text_by_tokens t b) <= b + estimate_tokens MARKER.
Proof.
  intros Hb. destruct (truncate_text_shape t b Hb) as [[-> He] | (body & -> & Hl)].
  - pose proof (estimate_nonneg MARKER). lia.
  - rewrite !estimate_len, len_app. vm_compute (Py.len MARKER).
    change (20 / 4) with 5.
    Z.div_mod_to_equations. lia.
Qed.

(** ** The accumulation loop *)

Lemma combine_results_acc (rs : list result) (b : Z) (acc : list pystr) (cur : Z) :
  combine_results rs b acc cur = acc ++ combine_results rs b [] cur.
Proof.
  revert acc cur. induction rs as [|r rs IH]; intros acc cur; simpl.
  - by rewrite app_nil_r.
  - destruct (b <? cur + estimate_tokens (result_text r)).
    + destruct (100 <? b - cur); [done | by rewrite app_nil_r].
    + rewrite IH. rewrite (IH [result_text r]). by rewrite app_assoc.
Qed.

(** The loop started at running total [cur] keeps the leading blocks that
    fit and decides on the next one from what remains. *)
Lemma combine_results_from (rs : list result) (b cur : Z) :
  let blocks := result_text <$> rs in
  let k := whole_blocks blocks b cur in
  let remaining := b - (cur + total_tokens (take k blocks)) in
  combine_results rs b [] cur
  = take k blocks
    ++ match blocks !! k with
       | Some block =>
           if 100 <? remaining
           then [truncate_text_by_tokens block remaining]
           else []
       | None => []
       end.
Proof.
  revert cur. induction rs as [|r rs IH]; intros cur; [reflexivity |].
  cbn [fmap list_fmap combine_results whole_blocks]. cbv zeta.
  destruct (b <? cur + estimate_tokens (result_text r)) eqn:Hov.
  - cbn [take lookup list_lookup total_tokens foldr app].
    by rewrite Z.add_0_r.
  - rewrite combine_results_acc. specialize (IH (cur + estimate_tokens (result_text r))).
    cbv zeta in IH. rewrite IH.
    cbn [take lookup list_lookup total_tokens foldr app].
    by rewrite Z.add_assoc.
Qed.

Lemma combine_results_accumulated (rs : list result) (b : Z) :
  combine_results rs b [] 0 = accumulated rs b.
Proof. apply combine_results_from. Qed.

Lemma whole_blocks_le (blocks : list pystr) (b cur : Z) :
  (whole_blocks blocks b cur <= length blocks)%nat.
Proof.
  revert cur. induction blocks as [|x blocks IH]; intros cur; simpl; [lia |].
  destruct (b <? cur + estimate_tokens x); [lia |].
  specialize (IH (cur + estimate_tokens x)). lia.
Qed.

Lemma total_tokens_nonneg (blocks : list pystr) : 0 <= total_tokens blocks.
Proof.
  induction blocks as [|x blocks IH]; simpl; [lia |].
  pose proof (estimate_nonneg x). lia.
Qed.

(** While blocks are kept whole the running total stays within budget. *)
Lemma whole_blocks_within (blocks : list pystr) (b cur : Z) (j : nat) :
  cur <= b -> (j <= whole_blocks blocks b cur)%nat ->
  cur + total_tokens (take j blocks) <= b.
Proof.
  revert cur j. induction blocks as [|x blocks IH]; intros cur j Hc Hj.
  - rewrite take_nil. simpl. lia.
  - destruct j as [|j]; [simpl; lia |]. simpl in Hj.
    destruct (Z.ltb_spec b (cur + estimate_tokens x)); [lia |].
    cbn [take total_tokens foldr].
    specialize (IH (cur + estimate_tokens x) j). fold (total_tokens (take j blocks)).
    lia.
Qed.

(** The block after the whole ones is the first to exceed the budget. *)
Lemma whole_blocks_overflow (blocks : list pystr) (b cur : Z) (block : pystr) :
  blocks !! whole_blocks blocks b cur = Some block ->
  b < cur + total_tokens (take (whole_blocks blocks b cur) blocks)
      + estimate_tokens block.
Proof.
  revert cur. induction blocks as [|x blocks IH]; intros cur; [done |].
  cbn [whole_blocks].
  destruct (Z.ltb_spec b (cur + estimate_tokens x)).
  - cbn. intros [= ->]. lia.
  - cbn [lookup list_lookup take total_tokens foldr]. intros Hl.
    apply IH in Hl. fold (total_tokens (take (whole_blocks blocks b (cur + estimate_tokens x)) blocks)).
    lia.
Qed.

(** What follows the first block that does not fit has no influence on
    the count. *)
Lemma whole_blocks_prefix (blocks more : list pystr) (b cur : Z) :
  (whole_blocks blocks b cur < length blocks)%nat ->
  whole_blocks (take (S (whole_blocks blocks b cur)) blocks ++ more) b cur
  = whole_blocks blocks b cur.
Proof.
  revert cur. induction blocks as [|x blocks IH]; intros cur; [simpl; lia |].
  cbn [whole_blocks].
  destruct (b <? cur + estimate_tokens x) eqn:Hov.
  - intros _. cbn [take app whole_blocks]. by rewrite Hov.
  - cbn [length]. intros Hlt. cbn [take app whole_blocks]. rewrite Hov.
    f_equal. apply IH. lia.
Qed.

Lemma final_text_results (rs : list result) (b : Z) :
  final_text (Results rs) b = Py.join blank_line (accumulated rs b).
Proof. simpl. by rewrite combine_results_accumulated. Qed.

Lemma truncate_search_results_unfold (sr : search_results) (b : Z) :
  truncate_search_results sr b
  = truncate_text_by_tokens (final_text sr b) b.
Proof.
  unfold truncate_search_results. destruct (no_results sr) eqn:Hn; [| done].
  destruct sr as [s | l]; simpl in Hn.
  - apply not_true_iff in Hn as ->. by destruct (b <=? 0).
  - destruct l; [| discriminate]. by destruct (b <=? 0).
Qed.

Lemma accumulated_prefix (rs more : list result) (b : Z) :
  let k := whole_blocks (result_text <$> rs) b 0 in
  (k < length rs)%nat ->
  accumulated (take (S k) rs ++ more) b = accumulated rs b.
Proof.
  intros k Hk. unfold accumulated. cbv zeta.
  rewrite fmap_app, fmap_take. fold k.
  set (blocks := result_text <$> rs) in *.
  assert (Hlen : (k < length blocks)%nat) by (subst blocks; by rewrite length_fmap).
  rewrite (whole_blocks_prefix blocks _ b 0 Hlen). fold k.
  assert (Htk : take k (take (S k) blocks ++ (result_text <$> more)) = take k blocks).
  { rewrite take_app_le by (rewrite length_take; lia).
    rewrite take_take. f_equal. lia. }
  assert (Hlk : (take (S k) blocks ++ (result_text <$> more)) !! k = blocks !! k).
  { rewrite lookup_app_l by (rewrite length_take; lia).
    apply lookup_take_lt. lia. }
  by rewrite Htk, Hlk.
Qed.

(** ** The claims *)

(** C1: under a budget [b] that holds at least one token, the results of
    [truncate_text_by_tokens] and of [truncate_search_results] are within
    budget up to the marker: the estimate of the result is at most [b] plus
    the estimate of the marker, and the result either has an estimate of at
    most [b], or is a body of at most [4 * b] characters followed by the
    marker.  For [truncate_search_results] this is the effect of the final
    truncation, whatever the loop has joined. *)
Theorem output_within_budget (b : Z) :
  0 < b ->
  (forall t, fits_budget (truncate_text_by_tokens t b) b)
  /\ (forall sr, fits_budget (truncate_search_results sr b) b)
  /\ (forall rs,
        truncate_search_results (Results rs) b
        = truncate_text_by_tokens
            (Py.join blank_line (combine_results rs b [] 0)) b).
Proof.
  intros Hb.
  assert (Ht : forall t, fits_budget (truncate_text_by_tokens t b) b).
  { intros t. split; [by apply truncate_text_bound |].
    destruct (truncate_text_shape t b Hb) as [[-> He] | Hbody]; [by left | by right]. }
  split; [exact Ht |]. split.
  - intros sr. rewrite truncate_search_results_unfold. apply Ht.
  - intros rs. by rewrite truncate_search_results_unfold.
Qed.

Lemma output_within_budget_witness :
  0 < 5
  /\ fits_budget
       (truncate_search_results
          (Results (replicate 5 (Dict {[ "title" := Py.lit "ab" ]}))) 5) 5.
Proof.
  split; [lia |]. apply (output_within_budget 5); lia.
Defined.

(** The marker is not counted in the budget: two tokens of text cut under
    a budget of one give four characters and the marker, six tokens. *)
Example marker_overshoots :
  truncate_text_by_tokens (rep 8 "a") 1 = rep 4 "a" ++ MARKER
  /\ estimate_tokens (truncate_text_by_tokens (rep 8 "a") 1) = 6.
Proof. vm_compute. split; reflexivity. Qed.

(** Per-record rounding can make the joined text overflow by far: five
    blocks of seven characters count one token each and pass the loop under
    a budget of five, while the joined text has 43 characters; the final
    pass cuts it to 20 characters and the marker. *)
Example rounding_overflow :
  let rs := replicate 5 (Dict {[ "title" := Py.lit "ab" ]}) in
  length (combine_results rs 5 [] 0) = 5%nat
  /\ estimate_tokens (final_text (Results rs) 5) = 10
  /\ truncate_search_results (Results rs) 5
     = take 20 (final_text (Results rs) 5) ++ MARKER.
Proof. vm_compute. repeat split; reflexivity. Qed.

(** C8: under a budget [b <= 0] both operations return the empty string,
    whatever the input. *)
Theorem nonpositive_budget_empty (b : Z) (t : pystr) (sr : search_results) :
  b <= 0 ->
  truncate_text_by_tokens t b = [] /\ truncate_search_results sr b = [].
Proof.
  intros Hb. split; [by apply truncate_text_nonpos |].
  rewrite truncate_search_results_unfold. by apply truncate_text_nonpos.
Qed.

Lemma nonpositive_budget_empty_witness :
  -3 <= 0
  /\ truncate_text_by_tokens (Py.lit "some text") (-3) = []
  /\ truncate_search_results
       (Results [record (Py.lit "A") (Py.lit "x")]) (-3) = [].
Proof.
  split; [lia |]. apply (nonpositive_budget_empty (-3)); lia.
Defined.

(** C9, as stated: a text whose estimate is within the budget is returned
    unchanged.  This fails at budget 0 for the texts of one to three
    characters, whose estimate is 0: the guard on the budget returns the
    empty string first. *)
Lemma fast_path_fails_at_zero :
  ~ (forall t b, estimate_tokens t <= b -> truncate_text_by_tokens t b = t).
Proof.
  intros H.
  assert (He : estimate_tokens (Py.lit "a") <= 0) by (vm_compute; discriminate).
  apply (H (Py.lit "a") 0) in He. vm_compute in He. discriminate He.
Qed.

(** C9, amended: under a positive budget, a text whose estimate is within
    the budget is returned unchanged, with no marker appended. *)
Theorem fast_path_unchanged (t : pystr) (b : Z) :
  0 < b -> estimate_tokens t <= b -> truncate_text_by_tokens t b = t.
Proof.
  intros Hb He. unfold truncate_text_by_tokens.
  destruct t as [|x t]; [reflexivity |]. simpl Py.not_.
  destruct (Z.leb_spec b 0); [lia |]. simpl orb. cbv iota zeta.
  destruct (Z.leb_spec (estimate_tokens (x :: t)) b); [reflexivity | lia].
Qed.

Lemma fast_path_unchanged_witness :
  0 < 1 /\ estimate_tokens (Py.lit "abcdefg") <= 1
  /\ truncate_text_by_tokens (Py.lit "abcdefg") 1 = Py.lit "abcdefg".
Proof.
  assert (He : estimate_tokens (Py.lit "abcdefg") <= 1) by (vm_compute; discriminate).
  split; [lia |]. split; [exact He |].
  apply (fast_path_unchanged (Py.lit "abcdefg") 1); [lia | exact He].
Defined.

(** C7: under a positive budget the loop keeps the leading [k] blocks whole
    and in input order, [k] being the number of blocks that can be added
    while the running total stays within budget; the block at position [k],
    if any, is the first whose tokens push the total over the budget, it is
    included as [truncate_text_by_tokens block remaining] exactly when
    [remaining > 100], and whatever follows it has no influence on the
    result. *)
Theorem accumulation_in_order (rs : list result) (b : Z) :
  0 < b ->
  let blocks := result_text <$> rs in
  let k := whole_blocks blocks b 0 in
  let remaining := b - total_tokens (take k blocks) in
  (k <= length rs)%nat
  /\ (forall j, (j <= k)%nat -> total_tokens (take j blocks) <= b)
  /\ (forall block, blocks !! k = Some block ->
        b < total_tokens (take k blocks) + estimate_tokens block)
  /\ combine_results rs b [] 0
     = take k blocks
       ++ match blocks !! k with
          | Some block =>
              if 100 <? remaining
              then [truncate_text_by_tokens block remaining]
              else []
          | None => []
          end
  /\ truncate_search_results (Results rs) b
     = truncate_text_by_tokens
         (Py.join blank_line (combine_results rs b [] 0)) b
  /\ (forall more, (k < length rs)%nat ->
        truncate_search_results (Results (take (S k) rs ++ more)) b
        = truncate_search_results (Results rs) b).
Proof.
  intros Hb blocks k remaining.
  split; [| split; [| split; [| split; [| split]]]].
  - subst k blocks. etrans; [apply whole_blocks_le |]. by rewrite length_fmap.
  - intros j Hj.
    pose proof (whole_blocks_within blocks b 0 j) as H. lia.
  - intros block Hblock.
    pose proof (whole_blocks_overflow blocks b 0 block Hblock) as H.
    fold k in H. lia.
  - rewrite combine_results_accumulated. reflexivity.
  - by rewrite truncate_search_results_unfold.
  - intros more Hk. subst remaining k blocks.
    rewrite !truncate_search_results_unfold, !final_text_results.
    by rewrite (accumulated_prefix rs more b Hk).
Qed.

Lemma accumulation_in_order_witness :
  let rs := [record (Py.lit "A") (rep 8 "x"); record (Py.lit "B") (rep 8 "y");
             record (Py.lit "C") (rep 8 "z")] in
  0 < 5
  /\ combine_results rs 5 [] 0 = [result_text (record (Py.lit "A") (rep 8 "x"))]
  /\ truncate_search_results (Results (take 2 rs ++ [])) 5
     = truncate_search_results (Results rs) 5.
Proof.
  intros rs.
  destruct (accumulation_in_order rs 5 ltac:(lia)) as (_ & _ & _ & Hc & _ & Hm).
  split; [lia |]. split.
  - rewrite Hc. vm_compute. reflexivity.
  - apply (Hm []). vm_compute. lia.
Defined.

Lemma result_text_dict_nonempty (d : gmap string pystr) :
  result_text (Dict d) <> [].
Proof. discriminate. Qed.

(** C5, as stated: a non-empty input under a positive budget gives a
    non-empty result.  A single record whose block does not fit a budget
    of at most 100 is dropped, and nothing is left. *)
Lemma nonempty_result_fails :
  ~ (forall sr b, no_results sr = false -> 0 < b ->
       truncate_search_results sr b <> []).
Proof.
  intros H.
  apply (H (Results [record (Py.lit "A") (rep 8 "x")]) 1); [done | lia |].
  vm_compute. reflexivity.
Qed.

(** C5, amended: under a positive budget a non-empty string gives a
    non-empty result, and a record list whose first block is non-empty (as
    the block of every dict is) gives a non-empty result exactly when that
    block fits the budget or the budget exceeds 100. *)
Theorem nonempty_result (b : Z) :
  0 < b ->
  (forall s, s <> [] -> truncate_search_results (Text s) b <> [])
  /\ (forall r rs, result_text r <> [] ->
        truncate_search_results (Results (r :: rs)) b <> []
        <-> estimate_tokens (result_text r) <= b \/ 100 < b).
Proof.
  intros Hb. split.
  - intros s Hs. rewrite truncate_search_results_unfold.
    by apply truncate_text_nonempty.
  - intros r rs Hr. rewrite truncate_search_results_unfold.
    cbn [final_text combine_results]. rewrite Z.add_0_l, Z.sub_0_r.
    destruct (Z.ltb_spec b (estimate_tokens (result_text r))) as [Hov | Hfit].
    + destruct (Z.ltb_spec 100 b) as [Hbig | Hsmall].
      * split; [intros _; by right |]. intros _.
        apply truncate_text_nonempty; [done |]. cbn [app Py.join].
        by apply truncate_text_nonempty.
      * split; [| lia]. intros Hne. by destruct Hne.
    + split; [intros _; by left |]. intros _.
      apply truncate_text_nonempty; [done |].
      rewrite combine_results_acc. cbn [app].
      by apply join_cons_nonempty.
Qed.

Lemma nonempty_result_witness :
  0 < 101
  /\ truncate_search_results (Text (Py.lit "abc")) 101 <> []
  /\ truncate_search_results (Results [record (Py.lit "A") (rep 500 "x")]) 101
     <> [].
Proof.
  destruct (nonempty_result 101 ltac:(lia)) as [Hs Hr].
  split; [lia |]. split.
  - apply Hs. discriminate.
  - apply Hr; [discriminate | right; lia].
Defined.

(** C2, as stated: the result ends with the marker if and only if a record
    was dropped or a text truncated.  Of two records under a budget of 5
    the second does not fit, 2 tokens remain, and it is dropped without a
    trace: the result is the first block, unmarked. *)
Lemma marker_iff_cut_fails :
  ~ (forall sr b, 0 < b ->
       MARKER `suffix_of` truncate_search_results sr b
       <-> record_dropped sr b = true \/ text_truncated sr b = true).
Proof.
  intros H.
  set (sr := Results [record (Py.lit "A") (rep 8 "x");
                      record (Py.lit "B") (rep 8 "y")]).
  assert (Hd : record_dropped sr 5 = true) by (vm_compute; reflexivity).
  assert (Hs : MARKER `suffix_of` truncate_search_results sr 5).
  { apply H; [lia | by left]. }
  apply suffix_length in Hs. vm_compute in Hs. lia.
Qed.

(** C2, amended: under a positive budget, if a text was truncated (the
    block that did not fit was included in part, or the final pass cut the
    joined text) the result ends with the marker; if none was, the result
    is the blocks kept whole, joined, with nothing appended, also when
    records were dropped. *)
Theorem marker_when_truncated (sr : search_results) (b : Z) :
  0 < b ->
  (text_truncated sr b = true ->
     MARKER `suffix_of` truncate_search_results sr b)
  /\ (text_truncated sr b = false ->
        truncate_search_results sr b = Py.join blank_line (kept_whole sr b)).
Proof.
  intros Hb. rewrite truncate_search_results_unfold. unfold text_truncated.
  destruct (cuts (final_text sr b) b) eqn:Hcut.
  { rewrite orb_true_r. split; [| discriminate].
    intros _. by apply truncate_text_marker. }
  rewrite orb_false_r, truncate_text_not_cut by done.
  destruct sr as [s | rs]; [split; [discriminate | done] |].
  rewrite final_text_results. unfold partial_included, accumulated, kept_whole.
  cbv zeta. set (blocks := result_text <$> rs). set (k := whole_blocks blocks b 0).
  split.
  - intros [Hk Hrem]%andb_true_iff. apply bool_decide_eq_true in Hk.
    destruct (lookup_lt_is_Some_2 blocks k Hk) as [block Hblock].
    rewrite Hblock, Hrem. apply join_snoc_suffix, truncate_text_marker.
    apply cuts_spec. apply Z.ltb_lt in Hrem.
    pose proof (whole_blocks_overflow blocks b 0 block Hblock) as Hov.
    fold k in Hov. lia.
  - intros Hp. destruct (blocks !! k) as [block |] eqn:Hblock;
      [| by rewrite app_nil_r].
    apply lookup_lt_Some in Hblock.
    rewrite bool_decide_eq_true_2 in Hp by done. simpl in Hp.
    by rewrite Hp, app_nil_r.
Qed.

Lemma marker_when_truncated_witness :
  let sr := Results [record (Py.lit "A") (rep 8 "x");
                     record (Py.lit "B") (rep 8 "y")] in
  0 < 5 /\ text_truncated sr 5 = false
  /\ truncate_search_results sr 5
     = result_text (record (Py.lit "A") (rep 8 "x")).
Proof.
  intros sr.
  assert (Ht : text_truncated sr 5 = false) by (vm_compute; reflexivity).
  split; [lia |]. split; [exact Ht |].
  destruct (marker_when_truncated sr 5 ltac:(lia)) as [_ Hw].
  rewrite (Hw Ht). vm_compute. reflexivity.
Defined.

(** C4, as stated: a record of the list given to [truncate_search_results]
    is rendered with the defaults ["No Title"], the snippet, and
    ["No content"].  The loop of [truncate_search_results] uses the empty
    string for a missing title or content and never reads the snippet. *)
Lemma record_defaults_fail :
  ~ (forall d : gmap string pystr,
       result_text (Dict d)
       = Py.lit "## " ++ default (Py.lit "No Title") (d !! "title")
         ++ blank_line
         ++ default (default (Py.lit "No content") (d !! "snippet"))
              (d !! "content")).
Proof. intros H. specialize (H ∅). vm_compute in H. discriminate H. Qed.

(** C4, amended: [truncate_search_results] renders a record of its list as
    ["## {title}\n\n{content}"] with a missing title or content replaced by
    the empty string; the defaults ["No Title"], snippet and ["No content"]
    are those of [truncated_web_search], which renders the records itself
    and passes the joined blocks on as one string.  The two renderings
    agree on the records that have both fields. *)
Theorem record_rendering (d : gmap string pystr) :
  result_text (Dict d)
  = Py.lit "## " ++ default [] (d !! "title") ++ blank_line
    ++ default [] (d !! "content")
  /\ elem_text d
     = Py.lit "## " ++ default (Py.lit "No Title") (d !! "title")
       ++ blank_line
       ++ match d !! "content" with
          | Some content => content
          | None => default (Py.lit "No content") (d !! "snippet")
          end
  /\ (is_Some (d !! "title") -> is_Some (d !! "content") ->
      result_text (Dict d) = elem_text d)
  /\ (forall ds b,
        truncated_web_search ds b
        = truncate_text_by_tokens (Py.join blank_line (elem_text <$> ds)) b).
Proof.
  split; [reflexivity |]. split; [| split].
  - unfold elem_text, dict_get. by destruct (d !! "content").
  - intros [title Ht] [content Hc]. unfold elem_text, dict_get. simpl.
    unfold dict_get. by rewrite Ht, Hc.
  - intros ds b. unfold truncated_web_search.
    by rewrite truncate_search_results_unfold.
Qed.

Lemma record_rendering_witness :
  let d : gmap string pystr :=
    {[ "title" := Py.lit "A"; "content" := Py.lit "x" ]} in
  is_Some (d !! "title") /\ is_Some (d !! "content")
  /\ result_text (Dict d) = elem_text d.
Proof.
  intros d.
  assert (Ht : is_Some (d !! "title")) by (vm_compute; eauto).
  assert (Hc : is_Some (d !! "content")) by (vm_compute; eauto).
  split; [exact Ht |]. split; [exact Hc |].
  destruct (record_rendering d) as (_ & _ & H & _). exact (H Ht Hc).
Defined.

(** ** Word-boundary back-off *)

Lemma cut_prefix_back_off (t : pystr) (b : Z) (i : nat) :
  0 < b ->
  is_last Py.space (take (Z.to_nat (4 * b)) t) i ->
  4 * (4 * b) < 5 * Z.of_nat i ->
  cut_prefix t b = take i t.
Proof.
  intros Hb Hi Hgt. unfold cut_prefix. cbv zeta.
  rewrite (slice_to_nonneg t) by lia.
  replace (b * 4) with (4 * b) by lia.
  rewrite (rfind_is_last _ _ _ Hi).
  unfold gt_scaled_08. destruct (Z.ltb_spec (4 * (4 * b)) (5 * Z.of_nat i)); [| lia].
  rewrite slice_to_nonneg by lia. rewrite Nat2Z.id, take_take.
  destruct Hi as [Hi _]. apply lookup_lt_Some in Hi. rewrite length_take in Hi.
  f_equal. lia.
Qed.

Lemma cut_prefix_hard (t : pystr) (b : Z) :
  0 < b ->
  (forall i, is_last Py.space (take (Z.to_nat (4 * b)) t) i ->
             5 * Z.of_nat i <= 4 * (4 * b)) ->
  cut_prefix t b = take (Z.to_nat (4 * b)) t.
Proof.
  intros Hb Hall. unfold cut_prefix. cbv zeta.
  rewrite (slice_to_nonneg t) by lia.
  replace (b * 4) with (4 * b) by lia.
  set (p := take (Z.to_nat (4 * b)) t) in *.
  unfold gt_scaled_08.
  destruct (Z.ltb_spec (4 * (4 * b)) (5 * Py.rfind p Py.space)) as [Hgt | Hle];
    [| reflexivity].
  destruct (rfind_spec p Py.space) as [[Hr _] | [Hr Hlast]]; [lia |].
  apply Hall in Hlast. lia.
Qed.

(** C6, as stated: the prefix is cut at its last space when the index of
    that space is at least 0.8 times the character limit.  The code asks
    for strictly more: with the last space at index 16 of a 20-character
    prefix the cut is the hard one. *)
Lemma back_off_at_threshold_fails :
  ~ (forall t b i,
       0 < b -> b < estimate_tokens t ->
       is_last Py.space (take (Z.to_nat (4 * b)) t) i ->
       4 * (4 * b) <= 5 * Z.of_nat i ->
       truncate_text_by_tokens t b = take i t ++ MARKER).
Proof.
  intros H.
  set (t := rep 16 "a" ++ Py.lit " " ++ rep 7 "a").
  assert (Hr : Py.rfind (take 20 t) Py.space = 16) by (vm_compute; reflexivity).
  assert (Hl : is_last Py.space (take (Z.to_nat (4 * 5)) t) 16).
  { destruct (rfind_spec (take 20 t) Py.space) as [[Hn _] | [_ Hlast]].
    - rewrite Hr in Hn. discriminate Hn.
    - rewrite Hr in Hlast. exact Hlast. }
  specialize (H t 5 16%nat ltac:(lia) ltac:(vm_compute; reflexivity) Hl ltac:(lia)).
  vm_compute in H. discriminate H.
Qed.

(** C6, amended: when [truncate_text_by_tokens] has to cut, the result is
    the text up to the last space of the prefix of [4 * max_tokens]
    characters, followed by the marker, if the index of that space is
    strictly greater than 0.8 times the character limit; it is the whole
    prefix followed by the marker otherwise, also when the prefix has no
    space. *)
Theorem word_boundary_back_off (t : pystr) (b : Z) :
  0 < b -> b < estimate_tokens t ->
  let char_limit := 4 * b in
  let prefix := take (Z.to_nat char_limit) t in
  (forall i, is_last Py.space prefix i ->
             4 * char_limit < 5 * Z.of_nat i ->
             truncate_text_by_tokens t b = take i t ++ MARKER)
  /\ ((forall i, is_last Py.space prefix i ->
                 5 * Z.of_nat i <= 4 * char_limit) ->
      truncate_text_by_tokens t b = prefix ++ MARKER).
Proof.
  intros Hb He char_limit prefix.
  assert (Hc : cuts t b = true) by (by apply cuts_spec).
  rewrite (truncate_text_cut t b Hc). split.
  - intros i Hi Hgt. f_equal. by apply cut_prefix_back_off.
  - intros Hall. f_equal. by apply cut_prefix_hard.
Qed.

Lemma word_boundary_back_off_witness :
  let t := rep 17 "a" ++ Py.lit " " ++ rep 6 "a" in
  0 < 5 /\ 5 < estimate_tokens t
  /\ truncate_text_by_tokens t 5 = rep 17 "a" ++ MARKER.
Proof.
  intros t.
  assert (He : 5 < estimate_tokens t) by (vm_compute; reflexivity).
  assert (Hr : Py.rfind (take 20 t) Py.space = 17) by (vm_compute; reflexivity).
  assert (Hl : is_last Py.space (take (Z.to_nat (4 * 5)) t) 17).
  { destruct (rfind_spec (take 20 t) Py.space) as [[Hn _] | [_ Hlast]].
    - rewrite Hr in Hn. discriminate Hn.
    - rewrite Hr in Hlast. exact Hlast. }
  split; [lia |]. split; [exact He |].
  destruct (word_boundary_back_off t 5 ltac:(lia) He) as [Hback _].
  rewrite (Hback 17%nat Hl ltac:(lia)). vm_compute. reflexivity.
Defined.

(** The sample text of the specification has no budget under which the cut
    backs off: its spaces are at 4, 9 and 14, never beyond 0.8 times a
    character limit of 4, 8 or 12. *)
Example four_char_groups :
  let t := Py.lit "aaaa aaaa aaaa aaaa" in
  estimate_tokens t = 4
  /\ forallb (fun b => negb (backs_off t b)) [1; 2; 3; 4] = true
  /\ truncate_text_by_tokens t 3 = Py.lit "aaaa aaaa aa" ++ MARKER.
Proof. vm_compute. repeat split; reflexivity. Qed.

(** ** Truncating twice *)

Lemma backs_off_spec (t : pystr) (b : Z) :
  backs_off t b = true
  <-> cuts t b = true
      /\ 4 * (b * 4) < 5 * Py.rfind (take (Z.to_nat (b * 4)) t) Py.space.
Proof.
  unfold backs_off, gt_scaled_08. rewrite andb_true_iff, Z.ltb_lt.
  split; intros [Hc Hg]; (split; [done |]);
    pose proof Hc as [Hb _]%cuts_spec.
  - by rewrite slice_to_nonneg in Hg by lia.
  - by rewrite slice_to_nonneg by lia.
Qed.

(** A hard cut is stable: the second call finds the same prefix. *)
Lemma truncate_twice_hard (t : pystr) (b : Z) :
  cuts t b = true -> backs_off t b = false ->
  truncate_text_by_tokens (truncate_text_by_tokens t b) b
  = truncate_text_by_tokens t b.
Proof.
  intros Hc Hn. pose proof Hc as [Hb He]%cuts_spec.
  pose proof (estimate_bounds t) as Hl.
  unfold backs_off in Hn. rewrite Hc in Hn. simpl in Hn.
  assert (Hp : cut_prefix t b = take (Z.to_nat (b * 4)) t).
  { unfold cut_prefix. cbv zeta. rewrite Hn. by rewrite slice_to_nonneg by lia. }
  rewrite (truncate_text_cut t b Hc), Hp.
  set (p := take (Z.to_nat (b * 4)) t) in *.
  assert (Hlen : length p = Z.to_nat (b * 4)).
  { subst p. rewrite length_take. unfold Py.len in Hl. lia. }
  destruct (cuts (p ++ MARKER) b) eqn:Hc2; [| by apply truncate_text_not_cut].
  rewrite (truncate_text_cut _ b Hc2). f_equal.
  unfold cut_prefix. cbv zeta.
  rewrite (slice_to_nonneg (p ++ MARKER)) by lia.
  rewrite take_app_length' by done.
  rewrite slice_to_nonneg in Hn by lia. fold p in Hn. by rewrite Hn.
Qed.

(** A cut at a space whose result is still over budget is not stable: the
    second call cuts the first result, marker included, at the character
    limit. *)
Lemma truncate_twice_back_off (t : pystr) (b : Z) :
  backs_off t b = true ->
  b < estimate_tokens (truncate_text_by_tokens t b) ->
  truncate_text_by_tokens (truncate_text_by_tokens t b) b
  <> truncate_text_by_tokens t b.
Proof.
  intros [Hc Hg]%backs_off_spec He1. pose proof Hc as [Hb He]%cuts_spec.
  pose proof (estimate_bounds t) as Hl.
  set (c := Z.to_nat (b * 4)) in *. set (p := take c t) in *.
  destruct (rfind_spec p Py.space) as [[Hr _] | [Hr Hlast]]; [lia |].
  set (ls := Z.to_nat (Py.rfind p Py.space)) in *.
  assert (Hlsc : (ls < c)%nat).
  { subst p. rewrite len_take in Hr. lia. }
  assert (Hp : cut_prefix t b = take ls t).
  { unfold cut_prefix. cbv zeta. rewrite (slice_to_nonneg t) by lia.
    fold c p. unfold gt_scaled_08.
    destruct (Z.ltb_spec (4 * (b * 4)) (5 * Py.rfind p Py.space)); [| lia].
    rewrite slice_to_nonneg by lia. fold ls. subst p.
    rewrite take_take. f_equal. lia. }
  rewrite (truncate_text_cut t b Hc), Hp in *.
  set (q := take ls t) in *.
  assert (Hq : length q = ls).
  { subst q. rewrite length_take. unfold Py.len in Hl. lia. }
  assert (Hc2 : cuts (q ++ MARKER) b = true) by (by apply cuts_spec).
  pose proof (estimate_bounds (q ++ MARKER)) as Hl1.
  rewrite len_app in Hl1. change (Py.len MARKER) with 20 in Hl1.
  rewrite (truncate_text_cut _ b Hc2).
  intros Heq. apply app_inv_tail in Heq.
  assert (Hlq : Py.len (cut_prefix (q ++ MARKER) b) = Z.of_nat ls).
  { rewrite Heq. unfold Py.len. by rewrite Hq. }
  clear Heq. unfold cut_prefix in Hlq. cbv zeta in Hlq.
  rewrite (slice_to_nonneg (q ++ MARKER)) in Hlq by lia. fold c in Hlq.
  set (p2 := take c (q ++ MARKER)) in *.
  assert (Hp2 : Py.len p2 = Z.of_nat c).
  { subst p2. rewrite len_take, len_app. change (Py.len MARKER) with 20.
    unfold Py.len in *. lia. }
  destruct (gt_scaled_08 (Py.rfind p2 Py.space) (b * 4)) eqn:Hg2.
  - unfold gt_scaled_08 in Hg2. apply Z.ltb_lt in Hg2.
    destruct (rfind_spec p2 Py.space) as [[Hr2 _] | [Hr2 [Hat _]]]; [lia |].
    rewrite slice_to_nonneg, len_take in Hlq by lia.
    assert (Hls2 : Z.to_nat (Py.rfind p2 Py.space) = ls) by lia.
    rewrite Hls2 in Hat. subst p2.
    rewrite lookup_take_lt in Hat by done.
    rewrite lookup_app_r in Hat by lia.
    replace (ls - length q)%nat with O in Hat by lia.
    vm_compute in Hat. discriminate Hat.
  - lia.
Qed.

(** C3, as stated: truncating twice with the same budget gives the result
    of truncating once.  After a cut at the space at index 38 under a
    budget of 10, the result has 58 characters and is cut again, at the
    character limit 40, which falls inside the marker. *)
Lemma truncate_twice_fails :
  ~ (forall t b,
       truncate_text_by_tokens (truncate_text_by_tokens t b) b
       = truncate_text_by_tokens t b).
Proof.
  intros H.
  specialize (H (rep 38 "a" ++ Py.lit " " ++ rep 10 "a") 10).
  apply (f_equal length) in H. vm_compute in H. discriminate H.
Qed.

(** C3, amended: truncating twice with the same budget gives the result of
    truncating once exactly when the first call did not back off to a
    space, or its result is within the budget; in particular whenever the
    text is within the budget to begin with. *)
Theorem truncate_twice (t : pystr) (b : Z) :
  (truncate_text_by_tokens (truncate_text_by_tokens t b) b
   = truncate_text_by_tokens t b
   <-> backs_off t b = false
       \/ estimate_tokens (truncate_text_by_tokens t b) <= b)
  /\ (estimate_tokens t <= b ->
      truncate_text_by_tokens (truncate_text_by_tokens t b) b
      = truncate_text_by_tokens t b).
Proof.
  assert (Hfit : forall u, estimate_tokens u <= b ->
                 truncate_text_by_tokens (truncate_text_by_tokens u b) b
                 = truncate_text_by_tokens u b).
  { intros u Hu. destruct (Z.le_gt_cases b 0).
    - by rewrite !truncate_text_nonpos.
    - by rewrite !(truncate_text_fits u b). }
  split; [| apply Hfit]. split.
  - intros Hst. destruct (backs_off t b) eqn:Hbo; [right | by left].
    destruct (Z.le_gt_cases (estimate_tokens (truncate_text_by_tokens t b)) b)
      as [Hle | Hgt]; [done |].
    by destruct (truncate_twice_back_off t b Hbo Hgt).
  - intros [Hbo | Hle].
    + destruct (cuts t b) eqn:Hc; [by apply truncate_twice_hard |].
      destruct (Z.le_gt_cases b 0).
      * by rewrite !truncate_text_nonpos.
      * by rewrite !(truncate_text_not_cut t b).
    + destruct (Z.le_gt_cases b 0).
      * by rewrite !truncate_text_nonpos.
      * by apply truncate_text_fits.
Qed.

Lemma truncate_twice_witness :
  let t := Py.lit "abcdefg" in
  estimate_tokens t <= 1
  /\ truncate_text_by_tokens (truncate_text_by_tokens t 1) 1
     = truncate_text_by_tokens t 1.
Proof.
  intros t.
  assert (He : estimate_tokens t <= 1) by (vm_compute; discriminate).
  split; [exact He |].
  destruct (truncate_twice t 1) as [_ H]. exact (H He).
Defined.

(** ** The samples of the specification *)

Example two_records_fit :
  let a := record (Py.lit "A") (rep 50 "x") in
  let b := record (Py.lit "B") (rep 50 "y") in
  truncate_search_results (Results [a; b]) 100
  = result_text a ++ blank_line ++ result_text b.
Proof. vm_compute. reflexivity. Qed.

Example second_record_dropped :
  let a := record (Py.lit "A") (rep 50 "x") in
  let b := record (Py.lit "B") (rep 50 "y") in
  truncate_search_results (Results [a; b]) 20 = result_text a.
Proof. vm_compute. reflexivity. Qed.

(** ** The default budget *)

Section Default_budget.

Variable py_int : pystr -> option Z.

Lemma max_token_limit_absent (config : gmap string pyval) :
  config !! "MAX_TOKEN_LIMIT" = None ->
  get_max_token_limit py_int (Return config) = PInt 100000.
Proof. intros H. unfold get_max_token_limit, dict_get. by rewrite H. Qed.

Lemma max_token_limit_load_failure (e : exn) :
  get_max_token_limit py_int (Raise e) = PInt 100000.
Proof. reflexivity. Qed.

Lemma max_token_limit_int (config : gmap string pyval) (z : Z) :
  config !! "MAX_TOKEN_LIMIT" = Some (PInt z) ->
  get_max_token_limit py_int (Return config) = PInt z.
Proof. intros H. unfold get_max_token_limit, dict_get. by rewrite H. Qed.

Lemma max_token_limit_str (config : gmap string pyval) (s : pystr) :
  config !! "MAX_TOKEN_LIMIT" = Some (PStr s) ->
  get_max_token_limit py_int (Return config)
  = PInt (default 100000 (py_int s)).
Proof.
  intros H. unfold get_max_token_limit, dict_get. rewrite H. simpl.
  by destruct (py_int s).
Qed.

(** With no limit configured, a limit that is an integer or a string, or
    a configuration that fails to load, the call without a budget
    returns, under the limit read or the default 100000. *)
Lemma default_budget_returns (conf : outcome (gmap string pyval))
    (sr : search_results) :
  (forall config, conf = Return config ->
                  config !! "MAX_TOKEN_LIMIT" <> Some PNone) ->
  exists max_tokens,
    get_max_token_limit py_int conf = PInt max_tokens
    /\ truncate_search_results_default py_int conf sr
       = Return (truncate_search_results sr max_tokens).
Proof.
  intros Hconf. unfold truncate_search_results_default.
  destruct conf as [config | e]; [| by exists 100000].
  specialize (Hconf config eq_refl).
  destruct (config !! "MAX_TOKEN_LIMIT") as [[z | s |] |] eqn:Hl.
  - exists z. by rewrite (max_token_limit_int _ _ Hl).
  - exists (default 100000 (py_int s)). by rewrite (max_token_limit_str _ _ Hl).
  - done.
  - exists 100000. by rewrite (max_token_limit_absent _ Hl).
Qed.

End Default_budget.

(** C10: a configured limit that is not a number is to be replaced by the
    default 100000 without an exception reaching the caller.  The code
    does so for strings only: a null [MAX_TOKEN_LIMIT] is returned as it
    is by [get_max_token_limit], and the call of [truncate_search_results]
    without a budget raises [TypeError] on every non-empty input, at its
    first comparison of the limit with an integer. *)
Theorem null_limit_raises (py_int : pystr -> option Z) :
  let conf : outcome (gmap string pyval) :=
    Return {[ "MAX_TOKEN_LIMIT" := PNone ]} in
  get_max_token_limit py_int conf = PNone
  /\ (forall sr, no_results sr = false ->
        truncate_search_results_default py_int conf sr = Raise TypeError)
  /\ truncate_search_results_default py_int conf (Text (Py.lit "abc"))
     = Raise TypeError.
Proof.
  intros conf.
  assert (Hl : get_max_token_limit py_int conf = PNone).
  { unfold conf, get_max_token_limit, dict_get. by rewrite lookup_singleton_eq. }
  assert (Hr : forall sr, no_results sr = false ->
               truncate_search_results_default py_int conf sr = Raise TypeError).
  { intros sr Hsr. unfold truncate_search_results_default. by rewrite Hl, Hsr. }
  split; [exact Hl |]. split; [exact Hr |]. by apply Hr.
Qed.

Lemma null_limit_raises_witness :
  no_results (Results [record (Py.lit "A") (Py.lit "x")]) = false
  /\ truncate_search_results_default (fun _ => None)
       (Return {[ "MAX_TOKEN_LIMIT" := PNone ]})
       (Results [record (Py.lit "A") (Py.lit "x")])
     = Raise TypeError.
Proof.
  destruct (null_limit_raises (fun _ => None)) as (_ & H & _).
  split; [reflexivity |]. apply H. reflexivity.
Defined.

(** * Further properties of the code *)

(** ** [estimate_tokens] *)

(** X1: the estimate of a prefix never exceeds the estimate of the text. *)
Theorem estimate_prefix_mono (s t : pystr) :
  s `prefix_of` t -> estimate_tokens s <= estimate_tokens t.
Proof.
  intros Hp. apply prefix_length in Hp. rewrite !estimate_len.
  apply Z.div_le_mono; [lia |]. unfold Py.len. lia.
Qed.

Lemma estimate_prefix_mono_witness :
  Py.lit "abcd" `prefix_of` Py.lit "abcdefgh"
  /\ estimate_tokens (Py.lit "abcd") <= estimate_tokens (Py.lit "abcdefgh").
Proof.
  assert (Hp : Py.lit "abcd" `prefix_of` Py.lit "abcdefgh")
    by (exists (Py.lit "efgh"); reflexivity).
  split; [exact Hp |]. exact (estimate_prefix_mono _ _ Hp).
Defined.

(** X2: estimating two texts apart loses at most one token against
    estimating their concatenation, and never gains. *)
Theorem estimate_app (s t : pystr) :
  estimate_tokens s + estimate_tokens t <= estimate_tokens (s ++ t)
  /\ estimate_tokens (s ++ t) <= estimate_tokens s + estimate_tokens t + 1.
Proof.
  rewrite !estimate_len, len_app.
  pose proof (len_nonneg s). pose proof (len_nonneg t).
  split; Z.div_mod_to_equations; lia.
Qed.

(** ** [truncate_text_by_tokens] *)

(** The two ways the cutting branch ends: the prefix of [4 * b] characters,
    or that prefix up to its last space, which then lies beyond 0.8 times
    the character limit. *)
Lemma cut_prefix_cases (t : pystr) (b : Z) :
  0 < b ->
  cut_prefix t b = take (Z.to_nat (4 * b)) t
  \/ exists i, is_last Py.space (take (Z.to_nat (4 * b)) t) i
               /\ 4 * (4 * b) < 5 * Z.of_nat i
               /\ cut_prefix t b = take i t.
Proof.
  intros Hb.
  destruct (rfind_spec (take (Z.to_nat (4 * b)) t) Py.space)
    as [[Hr Hnone] | [Hr Hlast]].
  - left. apply cut_prefix_hard; [done |].
    intros i [Hi _]. by apply Hnone in Hi.
  - set (i := Z.to_nat (Py.rfind (take (Z.to_nat (4 * b)) t) Py.space)) in *.
    destruct (Z.lt_ge_cases (4 * (4 * b)) (5 * Z.of_nat i)) as [Hgt | Hle].
    + right. exists i. split; [done |]. split; [done |].
      by apply cut_prefix_back_off.
    + left. apply cut_prefix_hard; [done |].
      intros j Hj. by rewrite (is_last_unique _ _ _ _ Hj Hlast).
Qed.

Lemma cut_prefix_is_prefix (t : pystr) (b : Z) :
  0 < b -> cut_prefix t b `prefix_of` t.
Proof.
  intros Hb.
  destruct (cut_prefix_cases t b Hb) as [-> | (i & _ & _ & ->)];
    apply prefix_take.
Qed.

(** X3: the result is made of the text's own leading characters: it is a
    prefix of the text, or a prefix of the text followed by the marker. *)
Theorem truncate_text_keeps_prefix (t : pystr) (b : Z) :
  exists p, p `prefix_of` t
            /\ (truncate_text_by_tokens t b = p
                \/ truncate_text_by_tokens t b = p ++ MARKER).
Proof.
  destruct (Z.le_gt_cases b 0) as [Hb | Hb].
  { exists []. split; [apply prefix_nil |]. left. by apply truncate_text_nonpos. }
  destruct (cuts t b) eqn:Hc.
  - exists (cut_prefix t b). split; [by apply cut_prefix_is_prefix |].
    right. by apply truncate_text_cut.
  - exists t. split; [done |]. left. by apply truncate_text_not_cut.
Qed.

Lemma len_cut_prefix_lower (t : pystr) (b : Z) :
  cuts t b = true -> 4 * (4 * b) <= 5 * Py.len (cut_prefix t b).
Proof.
  intros [Hb He]%cuts_spec. pose proof (estimate_bounds t) as Hl.
  destruct (cut_prefix_cases t b Hb) as [-> | (i & [Hi _] & Hgt & ->)].
  - rewrite len_take. lia.
  - apply lookup_lt_Some in Hi. rewrite length_take in Hi.
    rewrite len_take. lia.
Qed.

(** X4: when the text is cut, what is kept before the marker has at most
    [4 * max_tokens] characters and at least 80% of that; the result is
    that many characters and the 20 of the marker. *)
Theorem cut_keeps_most (t : pystr) (b : Z) :
  cuts t b = true ->
  exists body,
    truncate_text_by_tokens t b = body ++ MARKER
    /\ 4 * (4 * b) <= 5 * Py.len body
    /\ Py.len body <= 4 * b
    /\ Py.len (truncate_text_by_tokens t b) = Py.len body + 20.
Proof.
  intros Hc. pose proof Hc as [Hb _]%cuts_spec.
  exists (cut_prefix t b). rewrite (truncate_text_cut t b Hc).
  split; [done |]. split; [by apply len_cut_prefix_lower |].
  split; [by apply len_cut_prefix |]. by rewrite len_app.
Qed.

Lemma cut_keeps_most_witness :
  cuts (rep 17 "a" ++ Py.lit " " ++ rep 6 "a") 5 = true
  /\ exists body,
       truncate_text_by_tokens (rep 17 "a" ++ Py.lit " " ++ rep 6 "a") 5
       = body ++ MARKER
       /\ 4 * (4 * 5) <= 5 * Py.len body.
Proof.
  assert (Hc : cuts (rep 17 "a" ++ Py.lit " " ++ rep 6 "a") 5 = true)
    by (vm_compute; reflexivity).
  split; [exact Hc |].
  destruct (cut_keeps_most _ _ Hc) as (body & H1 & H2 & _).
  exists body. split; [exact H1 | exact H2].
Defined.

(** X5: a cut that keeps fewer than [4 * max_tokens] characters ends at a
    word boundary: the character of the text right after what is kept is
    a space, and there is no space between it and the character limit. *)
Theorem short_cut_at_space (t : pystr) (b : Z) (body : pystr) :
  cuts t b = true ->
  truncate_text_by_tokens t b = body ++ MARKER ->
  Py.len body < 4 * b ->
  t !! length body = Some Py.space
  /\ forall j, (length body < j)%nat -> Z.of_nat j < 4 * b ->
               t !! j <> Some Py.space.
Proof.
  intros Hc Hout Hshort. pose proof Hc as [Hb He]%cuts_spec.
  pose proof (estimate_bounds t) as Hl.
  rewrite (truncate_text_cut t b Hc) in Hout. apply app_inv_tail in Hout.
  subst body.
  destruct (cut_prefix_cases t b Hb) as [Heq | (i & [Hi Hafter] & Hgt & Heq)];
    rewrite Heq in *.
  - rewrite len_take in Hshort. lia.
  - pose proof Hi as Hlt%lookup_lt_Some. rewrite length_take in Hlt.
    assert (Hlen : length (take i t) = i) by (rewrite length_take; lia).
    rewrite Hlen. split.
    + by rewrite lookup_take_lt in Hi by lia.
    + intros j Hj Hjc. specialize (Hafter j Hj).
      by rewrite lookup_take_lt in Hafter by lia.
Qed.

Lemma short_cut_at_space_witness :
  let t := rep 17 "a" ++ Py.lit " " ++ rep 6 "a" in
  cuts t 5 = true
  /\ truncate_text_by_tokens t 5 = rep 17 "a" ++ MARKER
  /\ Py.len (rep 17 "a") < 4 * 5
  /\ t !! length (rep 17 "a") = Some Py.space.
Proof.
  intros t.
  assert (Hc : cuts t 5 = true) by (vm_compute; reflexivity).
  assert (Ho : truncate_text_by_tokens t 5 = rep 17 "a" ++ MARKER)
    by (vm_compute; reflexivity).
  assert (Hs : Py.len (rep 17 "a") < 4 * 5) by (vm_compute; reflexivity).
  split; [exact Hc |]. split; [exact Ho |]. split; [exact Hs |].
  exact (proj1 (short_cut_at_space t 5 _ Hc Ho Hs)).
Defined.

Lemma take_prefix_le (t : pystr) (n m : nat) :
  (n <= m)%nat -> take n t `prefix_of` take m t.
Proof.
  intros Hnm. replace (take n t) with (take n (take m t)).
  - apply prefix_take.
  - rewrite take_take. f_equal. lia.
Qed.

Lemma is_last_take_le (c : Py.char) (t : pystr) (i n m : nat) :
  (i < n)%nat -> (n <= m)%nat ->
  is_last c (take m t) i -> is_last c (take n t) i.
Proof.
  intros Hin Hnm [Hi Hafter]. split.
  - rewrite lookup_take_lt in Hi by lia. by rewrite lookup_take_lt by lia.
  - intros j Hj. destruct (Nat.lt_ge_cases j n) as [Hjn | Hjn].
    + specialize (Hafter j Hj). rewrite lookup_take_lt in Hafter by lia.
      by rewrite lookup_take_lt by lia.
    + by rewrite lookup_take_ge by lia.
Qed.

Lemma cut_prefix_mono (t : pystr) (b1 b2 : Z) :
  0 < b1 -> b1 <= b2 -> cut_prefix t b1 `prefix_of` cut_prefix t b2.
Proof.
  intros Hb1 Hb.
  assert (Hshort : exists n, (n <= Z.to_nat (4 * b1))%nat
                             /\ cut_prefix t b1 = take n t).
  { destruct (cut_prefix_cases t b1 Hb1) as [-> | (i & [Hi _] & _ & ->)].
    - by exists (Z.to_nat (4 * b1)).
    - apply lookup_lt_Some in Hi. rewrite length_take in Hi.
      exists i. split; [lia | done]. }
  destruct Hshort as (n1 & Hn1 & Hp1).
  destruct (cut_prefix_cases t b2 ltac:(lia)) as [-> | (i & Hi & Hgt & ->)].
  - rewrite Hp1. apply take_prefix_le. lia.
  - destruct (Nat.lt_ge_cases i (Z.to_nat (4 * b1))) as [Hlt | Hge].
    + rewrite (cut_prefix_back_off t b1 i Hb1); [done | | lia].
      apply (is_last_take_le _ _ _ _ (Z.to_nat (4 * b2))); [done | lia | done].
    + rewrite Hp1. apply take_prefix_le. lia.
Qed.

(** X6: a larger budget never keeps less: when the text is cut under both
    budgets, what is kept under the smaller one is a prefix of what is kept
    under the larger one. *)
Theorem larger_budget_keeps_more (t : pystr) (b1 b2 : Z) :
  0 < b1 -> b1 <= b2 -> cuts t b2 = true ->
  exists p1 p2,
    truncate_text_by_tokens t b1 = p1 ++ MARKER
    /\ truncate_text_by_tokens t b2 = p2 ++ MARKER
    /\ p1 `prefix_of` p2.
Proof.
  intros Hb1 Hb Hc2. pose proof Hc2 as [_ He]%cuts_spec.
  assert (Hc1 : cuts t b1 = true) by (apply cuts_spec; lia).
  exists (cut_prefix t b1), (cut_prefix t b2).
  split; [by apply truncate_text_cut |].
  split; [by apply truncate_text_cut |].
  by apply cut_prefix_mono.
Qed.

Lemma larger_budget_keeps_more_witness :
  let t := rep 17 "a" ++ Py.lit " " ++ rep 30 "a" in
  0 < 4 /\ 4 <= 5 /\ cuts t 5 = true
  /\ exists p1 p2,
       truncate_text_by_tokens t 4 = p1 ++ MARKER
       /\ truncate_text_by_tokens t 5 = p2 ++ MARKER
       /\ p1 `prefix_of` p2.
Proof.
  intros t.
  assert (Hc : cuts t 5 = true) by (vm_compute; reflexivity).
  split; [lia |]. split; [lia |]. split; [exact Hc |].
  apply (larger_budget_keeps_more t 4 5); [lia | lia | exact Hc].
Defined.

(** ** The accumulation loop and its rounding *)

Lemma len_join_bounds (blocks : list pystr) :
  blocks <> [] ->
  4 * total_tokens blocks <= Py.len (Py.join blank_line blocks)
  /\ Py.len (Py.join blank_line blocks)
     <= 4 * total_tokens blocks + 5 * Z.of_nat (length blocks) - 2.
Proof.
  induction blocks as [|p blocks IH]; [done |]. intros _.
  pose proof (estimate_bounds p) as Hp.
  destruct blocks as [|q blocks].
  - cbn [Py.join total_tokens foldr length]. lia.
  - specialize (IH ltac:(done)).
    change (Py.join blank_line (p :: q :: blocks))
      with (p ++ blank_line ++ Py.join blank_line (q :: blocks)).
    rewrite !len_app. change (Py.len blank_line) with 2.
    change (total_tokens (p :: q :: blocks))
      with (estimate_tokens p + total_tokens (q :: blocks)).
    change (length (p :: q :: blocks)) with (S (length (q :: blocks))).
    lia.
Qed.

Lemma total_le_estimate_join (blocks : list pystr) :
  total_tokens blocks <= estimate_tokens (Py.join blank_line blocks).
Proof.
  destruct blocks as [|p blocks]; [reflexivity |].
  destruct (len_join_bounds (p :: blocks) ltac:(done)) as [Hlo _].
  rewrite (estimate_len (Py.join _ _)). apply Z.div_le_lower_bound; lia.
Qed.

(** X7: the running total of the loop counts each block rounded down and
    no separator, so it under-estimates the joined text: the sum of the
    estimates of the blocks is at most the estimate of the joined blocks,
    and the joined blocks have fewer than five characters per block more
    than four times that sum. *)
Theorem running_total_underestimates (blocks : list pystr) :
  total_tokens blocks <= estimate_tokens (Py.join blank_line blocks)
  /\ Py.len (Py.join blank_line blocks)
     <= 4 * total_tokens blocks + 5 * Z.of_nat (length blocks).
Proof.
  split; [apply total_le_estimate_join |].
  destruct blocks as [|p blocks]; [vm_compute; discriminate |].
  destruct (len_join_bounds (p :: blocks) ltac:(done)) as [_ Hhi]. lia.
Qed.

Lemma whole_blocks_all (blocks : list pystr) (b cur : Z) :
  cur + total_tokens blocks <= b ->
  whole_blocks blocks b cur = length blocks.
Proof.
  revert cur. induction blocks as [|p blocks IH]; intros cur Hb; [done |].
  cbn [total_tokens foldr] in Hb. fold (total_tokens blocks) in Hb.
  pose proof (total_tokens_nonneg blocks).
  cbn [whole_blocks length].
  destruct (Z.ltb_spec b (cur + estimate_tokens p)); [lia |].
  f_equal. apply IH. lia.
Qed.

Lemma accumulated_all (rs : list result) (b : Z) :
  estimate_tokens (Py.join blank_line (result_text <$> rs)) <= b ->
  accumulated rs b = result_text <$> rs.
Proof.
  intros He. unfold accumulated. cbv zeta.
  pose proof (total_le_estimate_join (result_text <$> rs)) as Hle.
  rewrite whole_blocks_all by lia.
  rewrite lookup_ge_None_2 by lia. rewrite app_nil_r. by apply take_ge.
Qed.

(** X8: a record list whose joined blocks are within a positive budget is
    returned whole: every block in input order, separated by blank lines,
    nothing dropped and nothing appended. *)
Theorem results_within_budget_unchanged (rs : list result) (b : Z) :
  0 < b ->
  estimate_tokens (Py.join blank_line (result_text <$> rs)) <= b ->
  truncate_search_results (Results rs) b
  = Py.join blank_line (result_text <$> rs).
Proof.
  intros Hb He. rewrite truncate_search_results_unfold, final_text_results.
  rewrite accumulated_all by done. by apply truncate_text_fits.
Qed.

Lemma results_within_budget_unchanged_witness :
  let rs := [record (Py.lit "A") (rep 50 "x"); record (Py.lit "B") (rep 50 "y")] in
  0 < 100
  /\ estimate_tokens (Py.join blank_line (result_text <$> rs)) <= 100
  /\ truncate_search_results (Results rs) 100
     = Py.join blank_line (result_text <$> rs).
Proof.
  intros rs.
  assert (He : estimate_tokens (Py.join blank_line (result_text <$> rs)) <= 100)
    by (vm_compute; discriminate).
  split; [lia |]. split; [exact He |].
  apply (results_within_budget_unchanged rs 100); [lia | exact He].
Defined.

(** X9: before the final pass, whole blocks accepted by the loop can
    overflow the budget only by their rounding and separators: when no
    block is included in part, the joined text has at most [4 * b]
    characters plus five per block kept. *)
Theorem loop_overflow_bounded (rs : list result) (b : Z) :
  0 <= b ->
  partial_included (Results rs) b = false ->
  Py.len (final_text (Results rs) b)
  <= 4 * b + 5 * Z.of_nat (length (combine_results rs b [] 0)).
Proof.
  intros Hb Hp. cbn [final_text]. rewrite combine_results_accumulated.
  unfold accumulated, partial_included in *. cbv zeta in *.
  set (blocks := result_text <$> rs) in *.
  set (k := whole_blocks blocks b 0) in *.
  assert (Htail : match blocks !! k with
                  | Some block =>
                      if 100 <? b - total_tokens (take k blocks)
                      then [truncate_text_by_tokens block
                              (b - total_tokens (take k blocks))]
                      else []
                  | None => []
                  end = []).
  { destruct (blocks !! k) eqn:Hk; [| done].
    apply lookup_lt_Some in Hk.
    rewrite bool_decide_eq_true_2 in Hp by done. simpl in Hp. by rewrite Hp. }
  rewrite Htail, app_nil_r.
  pose proof (whole_blocks_within blocks b 0 k Hb ltac:(done)).
  destruct (take k blocks) as [|p kept] eqn:Hkept;
    [vm_compute (Py.len _); simpl length; lia |].
  destruct (len_join_bounds (p :: kept) ltac:(done)) as [_ Hhi]. lia.
Qed.

Lemma loop_overflow_bounded_witness :
  let rs := replicate 5 (Dict {[ "title" := Py.lit "ab" ]}) in
  0 <= 5 /\ partial_included (Results rs) 5 = false
  /\ Py.len (final_text (Results rs) 5)
     <= 4 * 5 + 5 * Z.of_nat (length (combine_results rs 5 [] 0)).
Proof.
  intros rs.
  assert (Hp : partial_included (Results rs) 5 = false)
    by (vm_compute; reflexivity).
  split; [lia |]. split; [exact Hp |].
  apply (loop_overflow_bounded rs 5); [lia | exact Hp].
Defined.

(** ** [truncated_web_search] *)

Lemma result_text_elem_text (d : gmap string pystr) :
  is_Some (d !! "title") -> is_Some (d !! "content") ->
  result_text (Dict d) = elem_text d.
Proof.
  intros [title Ht] [content Hc].
  unfold elem_text, result_text, dict_get. by rewrite Ht, Hc.
Qed.

(** X10: for records that all have a title and a content and whose joined
    blocks are within the budget, rendering them in
    [truncated_web_search] and truncating the string gives what
    [truncate_search_results] gives on the record list itself. *)
Theorem rendering_paths_agree (ds : list (gmap string pystr)) (b : Z) :
  Forall (fun d => is_Some (d !! "title") /\ is_Some (d !! "content")) ds ->
  estimate_tokens (Py.join blank_line (elem_text <$> ds)) <= b ->
  truncated_web_search ds b = truncate_search_results (Results (Dict <$> ds)) b.
Proof.
  intros Hall He.
  assert (Hmap : result_text <$> (Dict <$> ds) = elem_text <$> ds).
  { rewrite <- list_fmap_compose. apply Forall_fmap_ext.
    eapply Forall_impl; [exact Hall |].
    intros d [Ht Hc]. by apply result_text_elem_text. }
  unfold truncated_web_search.
  rewrite !truncate_search_results_unfold, final_text_results.
  rewrite accumulated_all by (by rewrite Hmap).
  cbn [final_text]. by rewrite Hmap.
Qed.

Lemma rendering_paths_agree_witness :
  let ds : list (gmap string pystr) :=
    [ {[ "title" := Py.lit "A"; "content" := rep 50 "x" ]};
      {[ "title" := Py.lit "B"; "content" := rep 50 "y" ]} ] in
  Forall (fun d => is_Some (d !! "title") /\ is_Some (d !! "content")) ds
  /\ estimate_tokens (Py.join blank_line (elem_text <$> ds)) <= 100
  /\ truncated_web_search ds 100
     = truncate_search_results (Results (Dict <$> ds)) 100.
Proof.
  intros ds.
  assert (Hall : Forall (fun d => is_Some (d !! "title")
                                  /\ is_Some (d !! "content")) ds).
  { repeat constructor; vm_compute; eauto. }
  assert (He : estimate_tokens (Py.join blank_line (elem_text <$> ds)) <= 100)
    by (vm_compute; discriminate).
  split; [exact Hall |]. split; [exact He |].
  exact (rendering_paths_agree ds 100 Hall He).
Defined.

Lemma elem_text_nonempty (d : gmap string pystr) : elem_text d <> [].
Proof. discriminate. Qed.

(** X11: on a non-empty list of records and under a positive limit,
    [truncated_web_search] returns a non-empty string, however small the
    limit: the blocks reach the truncation as one string, which is cut but
    never dropped. *)
Theorem web_search_nonempty (d : gmap string pystr)
    (ds : list (gmap string pystr)) (b : Z) :
  0 < b -> truncated_web_search (d :: ds) b <> [].
Proof.
  intros Hb. unfold truncated_web_search.
  rewrite truncate_search_results_unfold. cbn [final_text fmap list_fmap].
  apply truncate_text_nonempty; [done |].
  apply join_cons_nonempty, elem_text_nonempty.
Qed.

Lemma web_search_nonempty_witness :
  0 < 1
  /\ truncated_web_search [ {[ "title" := Py.lit "A"; "content" := rep 8 "x" ]} ] 1
     <> []
  /\ truncate_search_results (Results [record (Py.lit "A") (rep 8 "x")]) 1 = [].
Proof.
  split; [lia |]. split.
  - apply (web_search_nonempty _ [] 1). lia.
  - vm_compute. reflexivity.
Defined.

(** ** [get_max_token_limit] and the call without a budget *)

(** X12: when the configuration fails to load, has no [MAX_TOKEN_LIMIT],
    or has a string there that [int] rejects, the call without a budget
    is the call with the budget 100000. *)
Theorem default_budget_fallback (py_int : pystr -> option Z)
    (sr : search_results) :
  (forall e,
     truncate_search_results_default py_int (Raise e) sr
     = Return (truncate_search_results sr 100000))
  /\ (forall config,
        config !! "MAX_TOKEN_LIMIT" = None ->
        truncate_search_results_default py_int (Return config) sr
        = Return (truncate_search_results sr 100000))
  /\ (forall config s,
        config !! "MAX_TOKEN_LIMIT" = Some (PStr s) -> py_int s = None ->
        truncate_search_results_default py_int (Return config) sr
        = Return (truncate_search_results sr 100000)).
Proof.
  split; [done |]. split.
  - intros config Hk. unfold truncate_search_results_default.
    by rewrite (max_token_limit_absent py_int config Hk).
  - intros config s Hk Hs. unfold truncate_search_results_default.
    by rewrite (max_token_limit_str py_int config s Hk), Hs.
Qed.

Lemma default_budget_fallback_witness :
  let config : gmap string pyval :=
    {[ "MAX_TOKEN_LIMIT" := PStr (Py.lit "many") ]} in
  config !! "MAX_TOKEN_LIMIT" = Some (PStr (Py.lit "many"))
  /\ truncate_search_results_default (fun _ => None) (Return config)
       (Text (Py.lit "abc"))
     = Return (Py.lit "abc").
Proof.
  intros config.
  assert (Hk : config !! "MAX_TOKEN_LIMIT" = Some (PStr (Py.lit "many")))
    by (vm_compute; reflexivity).
  split; [exact Hk |].
  destruct (default_budget_fallback (fun _ => None) (Text (Py.lit "abc")))
    as (_ & _ & H).
  rewrite (H config _ Hk eq_refl). vm_compute. reflexivity.
Defined.

(** X13: a configured integer, or a configured string that [int] accepts,
    is the budget of the call without a budget. *)
Theorem configured_budget_used (py_int : pystr -> option Z)
    (config : gmap string pyval) (sr : search_results) (z : Z) :
  config !! "MAX_TOKEN_LIMIT" = Some (PInt z)
  \/ (exists s, config !! "MAX_TOKEN_LIMIT" = Some (PStr s)
                /\ py_int s = Some z) ->
  truncate_search_results_default py_int (Return config) sr
  = Return (truncate_search_results sr z).
Proof.
  intros [Hk | (s & Hk & Hs)]; unfold truncate_search_results_default.
  - by rewrite (max_token_limit_int py_int config z Hk).
  - by rewrite (max_token_limit_str py_int config s Hk), Hs.
Qed.

Lemma configured_budget_used_witness :
  let config : gmap string pyval := {[ "MAX_TOKEN_LIMIT" := PInt 1 ]} in
  config !! "MAX_TOKEN_LIMIT" = Some (PInt 1)
  /\ truncate_search_results_default (fun _ => None) (Return config)
       (Text (rep 8 "a"))
     = Return (rep 4 "a" ++ MARKER).
Proof.
  intros config.
  assert (Hk : config !! "MAX_TOKEN_LIMIT" = Some (PInt 1))
    by (vm_compute; reflexivity).
  split; [exact Hk |].
  rewrite (configured_budget_used (fun _ => None) config _ 1 (or_introl Hk)).
  vm_compute. reflexivity.
Defined.

(** X14: an empty input (no string, no records) gives the empty string
    without a budget too, whatever the configuration holds, a null limit
    included: the function returns before the limit is compared. *)
Theorem empty_input_returns (py_int : pystr -> option Z)
    (conf : outcome (gmap string pyval)) (sr : search_results) :
  no_results sr = true ->
  truncate_search_results_default py_int conf sr = Return [].
Proof.
  intros Hn. unfold truncate_search_results_default, truncate_search_results.
  rewrite Hn. by destruct (get_max_token_limit py_int conf).
Qed.

Lemma empty_input_returns_witness :
  no_results (Results []) = true
  /\ truncate_search_results_default (fun _ => None)
       (Return {[ "MAX_TOKEN_LIMIT" := PNone ]}) (Results [])
     = Return [].
Proof.
  split; [reflexivity |].
  apply (empty_input_returns (fun _ => None)). reflexivity.
Defined.

(** X15: a configured limit of zero or less, as an integer or as a string
    that [int] reads so, silences the call without a budget: every input
    gives the empty string. *)
Theorem nonpositive_limit_silences (py_int : pystr -> option Z)
    (config : gmap string pyval) (sr : search_results) (z : Z) :
  z <= 0 ->
  config !! "MAX_TOKEN_LIMIT" = Some (PInt z)
  \/ (exists s, config !! "MAX_TOKEN_LIMIT" = Some (PStr s)
                /\ py_int s = Some z) ->
  truncate_search_results_default py_int (Return config) sr = Return [].
Proof.
  intros Hz Hk.
  assert (Hl : get_max_token_limit py_int (Return config) = PInt z).
  { destruct Hk as [Hk | (s & Hk & Hs)].
    - by apply max_token_limit_int.
    - by rewrite (max_token_limit_str py_int config s Hk), Hs. }
  unfold truncate_search_results_default. rewrite Hl. f_equal.
  rewrite truncate_search_results_unfold. by apply truncate_text_nonpos.
Qed.

Lemma nonpositive_limit_silences_witness :
  let config : gmap string pyval := {[ "MAX_TOKEN_LIMIT" := PInt 0 ]} in
  0 <= 0 /\ config !! "MAX_TOKEN_LIMIT" = Some (PInt 0)
  /\ truncate_search_results_default (fun _ => None) (Return config)
       (Text (Py.lit "abc"))
     = Return [].
Proof.
  intros config.
  assert (Hk : config !! "MAX_TOKEN_LIMIT" = Some (PInt 0))
    by (vm_compute; reflexivity).
  split; [lia |]. split; [exact Hk |].
  apply (nonpositive_limit_silences (fun _ => None) config _ 0);
    [lia | left; exact Hk].
Defined.

(** ** Further bounds *)

(** X16: under a budget of at most 100 the loop never includes a block in
    part: what it combines is a leading segment of the rendered blocks,
    each one whole. *)
Theorem small_budget_whole_blocks (rs : list result) (b : Z) :
  b <= 100 ->
  exists k, combine_results rs b [] 0 = take k (result_text <$> rs).
Proof.
  intros Hb. exists (whole_blocks (result_text <$> rs) b 0).
  rewrite combine_results_accumulated. unfold accumulated. cbv zeta.
  set (blocks := result_text <$> rs).
  set (k := whole_blocks blocks b 0).
  pose proof (total_tokens_nonneg (take k blocks)).
  destruct (blocks !! k); [| by rewrite app_nil_r].
  destruct (Z.ltb_spec 100 (b - total_tokens (take k blocks))); [lia |].
  by rewrite app_nil_r.
Qed.

Lemma small_budget_whole_blocks_witness :
  let rs := [record (Py.lit "A") (rep 8 "x"); record (Py.lit "B") (rep 800 "y")] in
  100 <= 100
  /\ exists k, combine_results rs 100 [] 0 = take k (result_text <$> rs).
Proof.
  intros rs. split; [lia |].
  apply (small_budget_whole_blocks rs 100). lia.
Defined.

(** X17: the result can be longer than the text, by the marker, but by no
    more than 16 characters: a text that is cut has at least four
    characters beyond the limit, and the marker has 20. *)
Theorem truncate_text_grows_little (t : pystr) (b : Z) :
  Py.len (truncate_text_by_tokens t b) <= Py.len t + 16.
Proof.
  pose proof (len_nonneg t) as Ht.
  destruct (Z.le_gt_cases b 0) as [Hb | Hb].
  { rewrite truncate_text_nonpos by done. change (Py.len []) with 0. lia. }
  destruct (cuts t b) eqn:Hc.
  - pose proof Hc as [_ He]%cuts_spec. pose proof (estimate_bounds t).
    rewrite (truncate_text_cut t b Hc), len_app.
    pose proof (len_cut_prefix t b Hb). change (Py.len MARKER) with 20. lia.
  - rewrite truncate_text_not_cut by done. lia.
Qed.

(** The bound is reached: eight characters under a budget of one. *)
Example truncate_text_grows :
  Py.len (truncate_text_by_tokens (rep 8 "a") 1) = Py.len (rep 8 "a") + 16.
Proof. vm_compute. reflexivity. Qed.
